(** * NorthStar Funding Intelligence Platform: the Streamlit front end

    A shallow embedding of the two Python modules of the front end,

    - [frontend/services/api_client.py]: the [APIClient] class and the
      module-level [api_client] instance;
    - [frontend/app.py]: [main], [show_dashboard] and [show_settings];

    and the properties of them that the specification states.

    Python code runs against a world (the clock, the network, the log, the
    Streamlit page being rendered, the module namespace); a method is a
    function from the world to an outcome and the world after it. *)

From Stdlib Require Import String Ascii List Arith Lia Bool.
Import ListNotations.
Local Open Scope string_scope.
Local Open Scope list_scope.

(** ** Python strings

    A [str] is modelled by [string].  The only character the code inspects is
    ['/'] (U+002F); in UTF-8 no other code point contains the byte 0x2F, so
    stripping it byte-wise and code-point-wise agree. *)
Module PyStr.

(** [c in chars], for the set-of-characters argument of [str.rstrip]. *)
Fixpoint in_chars (c : ascii) (chars : string) : bool :=
  match chars with
  | EmptyString => false
  | String d rest => Ascii.eqb c d || in_chars c rest
  end.

(** [s.rstrip(chars)]: [s] without its longest suffix made of characters of
    [chars]. *)
Fixpoint rstrip (chars s : string) : string :=
  match s with
  | EmptyString => EmptyString
  | String c rest =>
      match rstrip chars rest with
      | EmptyString => if in_chars c chars then EmptyString else String c EmptyString
      | kept => String c kept
      end
  end.

(** The last character of a string, if it has one. *)
Fixpoint last_char (s : string) : option ascii :=
  match s with
  | EmptyString => None
  | String c EmptyString => Some c
  | String _ rest => last_char rest
  end.

(** [s.endswith(c)] for a one-character suffix. *)
Definition endswith_char (s : string) (c : ascii) : bool :=
  match last_char s with
  | Some d => Ascii.eqb d c
  | None => false
  end.

(** [c * n]: the character repeated. *)
Fixpoint replicate (n : nat) (c : ascii) : string :=
  match n with
  | O => EmptyString
  | S k => String c (replicate k c)
  end.

(** The specification's wording of what the constructor stores: the input
    "with all trailing '/' characters removed", read from the end of the
    string: reverse, drop the leading run of the character, reverse back. *)
Fixpoint drop_leading (c : ascii) (l : list ascii) : list ascii :=
  match l with
  | [] => []
  | d :: rest => if Ascii.eqb d c then drop_leading c rest else l
  end.

Definition remove_trailing (c : ascii) (s : string) : string :=
  string_of_list_ascii (rev (drop_leading c (rev (list_ascii_of_string s)))).

End PyStr.

(** ** Python values and [datetime] *)
Module Py.

(** The values the two modules pass around: [None], [str], and [dict] and
    [list] literals.  A [dict] keeps its items in insertion order. *)
#[warnings="-register-all"]
Inductive PyVal : Type :=
| PyNone
| PyStr (s : string)
| PyDict (items : list (string * PyVal))
| PyList (elems : list PyVal).

(** [d[key]] on the items of a dict; [None] stands for [KeyError]. *)
Fixpoint getitem (key : string) (items : list (string * PyVal)) : option PyVal :=
  match items with
  | [] => None
  | (k, v) :: rest => if String.eqb k key then Some v else getitem key rest
  end.

(** [v[key]] for a value that may or may not be a dict. *)
Definition subscript (v : PyVal) (key : string) : option PyVal :=
  match v with
  | PyDict items => getitem key items
  | _ => None
  end.

(** [list(d.keys())]. *)
Definition keys (items : list (string * PyVal)) : list string := map fst items.

(** The items of a dict other than the one under [key]. *)
Definition without (key : string) (items : list (string * PyVal)) : list (string * PyVal) :=
  filter (fun item => negb (String.eqb (fst item) key)) items.

(** [v == s] for a string literal [s]: [None], dicts and lists differ from
    every string. *)
Definition eq_str (v : PyVal) (s : string) : bool :=
  match v with
  | PyStr t => String.eqb t s
  | _ => false
  end.

(** A naive [datetime.datetime] (no [tzinfo]), as [datetime.now()] gives.
    The fields lie in the ranges of the class: year 1..9999, month 1..12,
    day 1..31, hour 0..23, minute and second 0..59, microsecond 0..999999. *)
Record datetime : Type := mkDatetime {
  year : nat; month : nat; day : nat;
  hour : nat; minute : nat; second : nat; microsecond : nat
}.

Definition digit (n : nat) : ascii := ascii_of_nat (48 + n mod 10).

(** The [width] lowest decimal digits of [n]: ["%0*d"] for [n < 10^width]. *)
Fixpoint zero_pad (width n : nat) : string :=
  match width with
  | O => EmptyString
  | S w => zero_pad w (n / 10) ++ String (digit n) EmptyString
  end.

(** [datetime.isoformat()]: [YYYY-MM-DDTHH:MM:SS.ffffff], the fraction left
    out when [microsecond] is 0. *)
Definition isoformat (d : datetime) : string :=
  zero_pad 4 (year d) ++ "-" ++ zero_pad 2 (month d) ++ "-" ++ zero_pad 2 (day d)
  ++ "T" ++ zero_pad 2 (hour d) ++ ":" ++ zero_pad 2 (minute d) ++ ":"
  ++ zero_pad 2 (second d)
  ++ (if Nat.eqb (microsecond d) 0 then "" else "." ++ zero_pad 6 (microsecond d)).

End Py.

(** ** The records of the service behind the API

    No Python file declares them: the client only names the operations. *)
Module Backend.

(** Modelled from the spec: the lifecycle states of a candidate (section 4.2,
    glossary), which no source file declares. *)
Inductive LifecycleState : Type :=
| Discovered | Enhancing | Enhanced | Approved | Rejected.

(** Modelled from the spec: the status of a discovery session (section 3),
    which no source file declares. *)
Inductive SessionStatus : Type :=
| Queued | Running | Completed | Failed.

(** Modelled from the spec: the error taxonomy (section 7), which no source
    file declares. *)
Inductive Error : Type :=
| NotFound | VersionConflict | InvalidTransition | ValidationFailed
| DownstreamUnavailable.

(** Modelled from the spec: the Candidate entity (section 3), which no source
    file declares; the attributes the stated properties read. *)
Record Candidate : Type := mkCandidate {
  candidate_id : string;
  candidate_name : string;
  candidate_state : LifecycleState;
  candidate_version : nat
}.

(** Modelled from the spec: the ContactIntelligence entity (section 3), owned
    by one candidate; [verified] is the property approval asks for
    (section 4.2). *)
Record ContactIntelligence : Type := mkContact {
  contact_candidate : string;
  contact_channel : string;
  contact_verified : bool
}.

(** Modelled from the spec: the DiscoverySession entity (section 3). *)
Record DiscoverySession : Type := mkSession {
  session_id : string;
  session_config : Py.PyVal;
  session_status : SessionStatus
}.

(** Modelled from the spec: the AuditEvent entity (section 3). *)
Record AuditEvent : Type := mkAuditEvent {
  audit_candidate : string;
  audit_actor : string;
  audit_previous : LifecycleState;
  audit_new : LifecycleState;
  audit_note : option string
}.

(** Modelled from the spec: what the Record Store holds (sections 2 and 3);
    [audit] is append-only, oldest event first. *)
Record Store : Type := mkStore {
  candidates : list Candidate;
  contacts : list ContactIntelligence;
  sessions : list DiscoverySession;
  audit : list AuditEvent
}.

(** The stored candidate with a given identifier. *)
Definition find_candidate (id : string) (s : Store) : option Candidate :=
  find (fun c => String.eqb (candidate_id c) id) (candidates s).

(** The state of the candidate with a given identifier, if it is stored. *)
Definition state_of (id : string) (s : Store) : option LifecycleState :=
  option_map candidate_state (find_candidate id s).

(** Whether the candidate has at least one verified contact. *)
Definition has_verified_contact (id : string) (s : Store) : bool :=
  existsb (fun k => String.eqb (contact_candidate k) id && contact_verified k)
          (contacts s).

End Backend.

(** ** The world Python code runs in, and computations over it *)
Module Runtime.
Import Py.

(** [requests.Session()]: a fresh session holds no cookie. *)
Record Session : Type := newSession { cookies : list (string * string) }.

(** [logging.getLogger(name)]: the logger registered under [name]. *)
Record Logger : Type := getLogger { logger_name : string }.

(** An instance of [APIClient]: the three attributes [__init__] sets. *)
Record APIClient : Type := mkAPIClient {
  base_url : string;
  session : Session;
  logger : Logger
}.

(** A request put on the network by a [requests.Session]. *)
Record HttpRequest : Type := mkRequest {
  request_method : string;
  request_url : string;
  request_body : PyVal
}.

(** A record handed to a logger. *)
Record LogRecord : Type := mkLogRecord {
  record_logger : string;
  record_level : string;
  record_message : string
}.

(** An element a Streamlit call puts on the page. *)
Inductive Element : Type :=
| PageConfig (page_title page_icon layout initial_sidebar_state : string)
| Title (body : string)
| Markdown (body : string)
| Header (body : string)
| Subheader (body : string)
| Info (body : string)
| Code (body : string)
| Metric (label value delta : string)
| Columns (spec : nat)
| InColumn (index : nat) (inner : Element)
| SidebarTitle (body : string)
| SidebarRadio (label : string) (options : list string).

(** The global namespace of the module [api_client]: its [__name__] and the
    binding of the global [api_client], absent until the module body ran. *)
Record Namespace : Type := mkNamespace {
  dunder_name : string;
  api_client : option APIClient
}.

(** Everything an observer can tell apart. *)
Record World : Type := mkWorld {
  clock : datetime;               (* what [datetime.now()] reads *)
  wire : list HttpRequest;        (* requests sent so far, oldest first *)
  log : list LogRecord;           (* records logged so far *)
  page : list Element;            (* elements rendered so far *)
  radio_index : nat;              (* the option selected in the sidebar radio *)
  backend : Backend.Store;        (* the state of the service behind the API *)
  globals : Namespace             (* the module namespace of [api_client] *)
}.

Definition with_page (w : World) (p : list Element) : World :=
  mkWorld (clock w) (wire w) (log w) p (radio_index w) (backend w) (globals w).

Definition with_globals (w : World) (g : Namespace) : World :=
  mkWorld (clock w) (wire w) (log w) (page w) (radio_index w) (backend w) g.

Definition with_radio_index (w : World) (i : nat) : World :=
  mkWorld (clock w) (wire w) (log w) (page w) i (backend w) (globals w).

(** How a call ends: with a value, or with an exception; either way the
    effects it had on the world stay. *)
Inductive Outcome (A : Type) : Type :=
| Returned (value : A)
| Raised (error : Backend.Error).
Arguments Returned {A} value.
Arguments Raised {A} error.

Definition M (A : Type) : Type := World -> Outcome A * World.

Definition ret {A : Type} (a : A) : M A := fun w => (Returned a, w).

Definition bind {A B : Type} (m : M A) (k : A -> M B) : M B :=
  fun w =>
    match m w with
    | (Returned a, w') => k a w'
    | (Raised e, w') => (Raised e, w')
    end.

Definition raise {A : Type} (e : Backend.Error) : M A := fun w => (Raised e, w).

Declare Scope py_scope.
Delimit Scope py_scope with py.
Notation "x <- m ;; k" := (bind m (fun x => k))
  (at level 61, m at next level, right associativity) : py_scope.
Notation "m ;; k" := (bind m (fun _ => k))
  (at level 61, right associativity) : py_scope.
Local Open Scope py_scope.

(** The statement [pass]. *)
Definition pass : M unit := ret tt.

(** A function whose body has no [return] statement: falling off the end of
    the body returns [None]. *)
Definition def (body : M unit) : M PyVal := body ;; ret PyNone.

(** A call used as a statement: the value is dropped. *)
Definition call (f : M PyVal) : M unit := f ;; ret tt.

(** [datetime.now()]. *)
Definition datetime_now : M datetime := fun w => (Returned (clock w), w).

(** The module global [__name__]. *)
Definition get_dunder_name : M string :=
  fun w => (Returned (dunder_name (globals w)), w).

(** What a computation returned, if it returned. *)
Definition value_of {A : Type} (r : Outcome A * World) : option A :=
  match fst r with
  | Returned a => Some a
  | Raised _ => None
  end.

End Runtime.

(** ** The Streamlit calls the application makes *)
Module St.
Import Py Runtime.
Local Open Scope py_scope.

(** Every rendering call appends one element to the page. *)
Definition render (e : Element) : M unit :=
  fun w => (Returned tt, with_page w (page w ++ [e])).

Definition set_page_config (page_title page_icon layout initial_sidebar_state : string)
  : M unit :=
  render (PageConfig page_title page_icon layout initial_sidebar_state).
Definition title (body : string) : M unit := render (Title body).
Definition markdown (body : string) : M unit := render (Markdown body).
Definition header (body : string) : M unit := render (Header body).
Definition subheader (body : string) : M unit := render (Subheader body).
Definition info (body : string) : M unit := render (Info body).
Definition code (body : string) : M unit := render (Code body).
Definition sidebar_title (body : string) : M unit := render (SidebarTitle body).

(** [st.columns(n)]: lays out [n] columns and returns their handles. *)
Definition columns (n : nat) : M (list nat) :=
  render (Columns n) ;; ret (seq 0 n).

(** [with col: st.metric(label, value, delta)]. *)
Definition metric_in (col : nat) (label value delta : string) : M unit :=
  render (InColumn col (Metric label value delta)).

(** [st.sidebar.radio(label, options)]: renders the widget and returns the
    selected option, or [None] when there is none. *)
Definition sidebar_radio (label : string) (options : list string) : M PyVal :=
  render (SidebarRadio label options) ;;
  fun w =>
    (Returned match nth_error options (radio_index w) with
              | Some o => PyStr o
              | None => PyNone
              end, w).

End St.

(** ** [frontend/services/api_client.py] *)
Module ApiClient.
Import Py Runtime.
Local Open Scope py_scope.

(** The default of the parameter [base_url] of [__init__]. *)
Definition default_base_url : string := "http://192.168.1.10:8080".

(** [APIClient.__init__(self, base_url=...)]; [None] for the argument left
    out.  The result is the initialised instance. *)
Definition __init__ (base_url : option string) : M APIClient :=
  let base_url := match base_url with
                  | Some u => u
                  | None => default_base_url
                  end in
  name <- get_dunder_name ;;
  ret (mkAPIClient (PyStr.rstrip "/" base_url) (newSession []) (getLogger name)).

(** [APIClient.health_check]. *)
Definition health_check (self : APIClient) : M PyVal :=
  now <- datetime_now ;;
  ret (PyDict [ ("status", PyStr "pending");
                ("message", PyStr "Backend API to be implemented in Phase 3.8");
                ("timestamp", PyStr (isoformat now)) ]).

(** The placeholder methods: each body is [pass]. *)
Definition get_candidates (self : APIClient) : M PyVal := def pass.

Definition get_candidate_detail (self : APIClient) (candidate_id : string) : M PyVal :=
  def pass.

Definition update_candidate (self : APIClient) (candidate_id : string) (data : PyVal)
  : M PyVal :=
  def pass.

Definition approve_candidate (self : APIClient) (candidate_id : string) : M PyVal :=
  def pass.

Definition reject_candidate (self : APIClient) (candidate_id : string) (reason : string)
  : M PyVal :=
  def pass.

Definition get_contact_intelligence (self : APIClient) (candidate_id : string) : M PyVal :=
  def pass.

Definition add_contact_intelligence (self : APIClient) (candidate_id : string)
  (contact_data : PyVal) : M PyVal :=
  def pass.

Definition trigger_discovery (self : APIClient) (session_config : PyVal) : M PyVal :=
  def pass.

Definition get_discovery_sessions (self : APIClient) : M PyVal := def pass.

(** The module body: [api_client = APIClient()]. *)
Definition module_body : M unit :=
  instance <- __init__ None ;;
  fun w => (Returned tt, with_globals w (mkNamespace (dunder_name (globals w)) (Some instance))).

End ApiClient.

(** ** [frontend/app.py] *)
Module App.
Import Py Runtime.
Local Open Scope py_scope.

(** [show_dashboard]. *)
Definition show_dashboard : M PyVal :=
  def (
    St.header "📊 Dashboard" ;;
    cols <- St.columns 3 ;;
    let col1 := nth 0 cols 0 in
    let col2 := nth 1 cols 0 in
    let col3 := nth 2 cols 0 in
    St.metric_in col1 "Backend Status" "🟡 Setup Phase" "Phase 3.1" ;;
    St.metric_in col2 "Database" "🟡 Not Connected" "Pending Phase 3.2" ;;
    St.metric_in col3 "AI Services" "🔴 Not Configured" "Pending Phase 3.11" ;;
    St.markdown "---" ;;
    St.subheader "System Overview" ;;
    St.info "
    **Current Status**: Phase 3.1 - Project Setup
    
    **Completed Setup Tasks:**
    - ✅ Spring Boot 3.5.5 project structure 
    - ✅ PostgreSQL connection configuration
    - ✅ Maven 3.9.9 dependencies
    - ✅ Docker Compose setup
    - ✅ Streamlit project structure
    
    **Next Phase**: 3.2 - Database Schema (TDD Foundation)
    ").

(** [show_settings]. *)
Definition show_settings : M PyVal :=
  def (
    St.header "⚙️ Settings" ;;
    St.subheader "Backend Configuration" ;;
    St.code "
    Backend URL: http://192.168.1.10:8080 (Mac Studio)
    Database: PostgreSQL on 192.168.1.10:5432
    AI Services: LM Studio on 192.168.1.10:1234
    " ;;
    St.subheader "Development Environment" ;;
    St.code "
    Frontend: MacBook M2 (192.168.1.5)
    Backend Development: MacBook M2 
    Production Services: Mac Studio (192.168.1.10)
    " ;;
    St.info "Configuration will be finalized in Phase 3.9 - Security & Configuration").

(** The option list handed to the sidebar radio in [main]. *)
Definition pages : list string :=
  [ "Dashboard"; "Discovery Queue"; "Enhancement"; "Approval Workflow"; "Settings" ].

(** The first four statements of [main]: the title, the tag line, the sidebar
    title and the radio; the value is the selected [page]. *)
Definition navigation : M PyVal :=
  St.title "⭐ NorthStar Funding Intelligence Platform" ;;
  St.markdown "*Human-AI Collaboration for Funding Discovery and Contact Intelligence*" ;;
  St.sidebar_title "Navigation" ;;
  St.sidebar_radio "Go to:" pages.

(** The [if]/[elif] chain of [main] over [page]; it has no [else]. *)
Definition route (page : PyVal) : M unit :=
  if eq_str page "Dashboard" then
    call show_dashboard
  else if eq_str page "Discovery Queue" then
    St.info "📋 Discovery Queue page - To be implemented in Phase 3.10 (T044)"
  else if eq_str page "Enhancement" then
    St.info "🔍 Enhancement page - To be implemented in Phase 3.10 (T045)"
  else if eq_str page "Approval Workflow" then
    St.info "✅ Approval Workflow page - To be implemented in Phase 3.10 (T046)"
  else if eq_str page "Settings" then
    call show_settings
  else
    pass.

(** [main]. *)
Definition main : M PyVal :=
  def (page <- navigation ;; route page).

(** The script: the page configuration, then [main()] when the file runs as
    [__main__]. *)
Definition script (name : string) : M unit :=
  St.set_page_config "NorthStar Funding Intelligence Platform" "⭐" "wide" "expanded" ;;
  if String.eqb name "__main__" then call main else pass.

End App.

(** ** Concrete inputs

    A client, a store holding one enhanced candidate without contacts, and a
    world around them, on which the operations are run below. *)
Module Sample.
Import Py Runtime.

Definition client : APIClient :=
  mkAPIClient "http://192.168.1.10:8080" (newSession []) (getLogger "services.api_client").

Definition store : Backend.Store :=
  Backend.mkStore
    [ Backend.mkCandidate "cand-1" "Open Research Fund" Backend.Enhanced 3 ]
    [] [] [].

Definition world : World :=
  mkWorld (mkDatetime 2025 9 30 14 5 7 123) [] [] [] 0 store
          (mkNamespace "services.api_client" None).

(** The same world a little later. *)
Definition later_world : World :=
  mkWorld (mkDatetime 2025 9 30 14 5 8 0) [] [] [] 0 store
          (mkNamespace "services.api_client" None).

Definition discovery_config : PyVal := PyDict [ ("source", PyStr "grants.gov") ].

Definition contact_data : PyVal :=
  PyDict [ ("channel", PyStr "email"); ("verified", PyStr "true") ].

End Sample.

(** ** What a run shows

    Readings of a run and of its inputs, used to state what the code does and
    does not do. *)
Module Observe.
Import Py Runtime.

(** The elements a computation adds to the page when run in [w]. *)
Definition rendered {A : Type} (m : M A) (w : World) : list Element :=
  skipn (length (page w)) (page (snd (m w))).

(** The columns the metrics among [elems] are placed in, in order. *)
Fixpoint metric_columns (elems : list Element) : list nat :=
  match elems with
  | [] => []
  | InColumn i (Metric _ _ _) :: rest => i :: metric_columns rest
  | _ :: rest => metric_columns rest
  end.

(** The bodies of the code blocks among [elems], in order. *)
Fixpoint code_bodies (elems : list Element) : list string :=
  match elems with
  | [] => []
  | Code body :: rest => body :: code_bodies rest
  | _ :: rest => code_bodies rest
  end.

(** [needle in hay] for strings. *)
Fixpoint contains (needle hay : string) : bool :=
  match hay with
  | EmptyString => String.prefix needle EmptyString
  | String _ rest => String.prefix needle hay || contains needle rest
  end.

(** The field ranges of [datetime.datetime]: a year of at most four digits,
    a microsecond of at most six. *)
Definition valid_datetime (d : datetime) : bool :=
  ((1 <=? year d) && (year d <? 10 ^ 4) &&
   (1 <=? month d) && (month d <=? 12) &&
   (1 <=? day d) && (day d <=? 31) &&
   (hour d <? 24) && (minute d <? 60) && (second d <? 60) &&
   (microsecond d <? 10 ^ 6))%nat.

End Observe.

(** * Properties *)

(** ** [str.rstrip] *)
Module PyStrFacts.
Import PyStr.
Local Open Scope string_scope.

Example rstrip_trailing_slashes : rstrip "/" "http://host:8080///" = "http://host:8080".
Proof. reflexivity. Qed.

Example rstrip_inner_slashes_stay : rstrip "/" "http://host/api" = "http://host/api".
Proof. reflexivity. Qed.

Example rstrip_all_slashes : rstrip "/" "//" = "".
Proof. reflexivity. Qed.

Example rstrip_char_set : rstrip "/." "a.b/./" = "a.b".
Proof. reflexivity. Qed.

Lemma in_chars_single (c d : ascii) : in_chars c (String d EmptyString) = Ascii.eqb c d.
Proof. simpl. apply orb_false_r. Qed.

(** One step of [rstrip], by what the rest of the string strips to. *)
Lemma rstrip_cons_empty (chars : string) (c : ascii) (rest : string) :
  rstrip chars rest = EmptyString ->
  rstrip chars (String c rest) =
    if in_chars c chars then EmptyString else String c EmptyString.
Proof. intros E. simpl. rewrite E. reflexivity. Qed.

Lemma rstrip_cons_kept (chars : string) (c : ascii) (rest : string) :
  rstrip chars rest <> EmptyString ->
  rstrip chars (String c rest) = String c (rstrip chars rest).
Proof.
  intros N. simpl. destruct (rstrip chars rest); [contradiction | reflexivity].
Qed.

(** What [rstrip] cuts off is a run of the stripped character. *)
Lemma rstrip_suffix (c : ascii) (s : string) :
  exists n, s = rstrip (String c EmptyString) s ++ replicate n c.
Proof.
  induction s as [| a rest [n IH]].
  - exists 0. reflexivity.
  - destruct (rstrip (String c EmptyString) rest) as [| b kept] eqn:E.
    + rewrite (rstrip_cons_empty _ _ _ E), in_chars_single.
      destruct (Ascii.eqb_spec a c) as [-> | _].
      * exists (S n). simpl. f_equal. exact IH.
      * exists n. simpl. f_equal. exact IH.
    + rewrite rstrip_cons_kept, E by (rewrite E; discriminate).
      exists n. simpl. f_equal. exact IH.
Qed.

(** What [rstrip] keeps does not end with a stripped character. *)
Lemma rstrip_last_char (chars s : string) (d : ascii) :
  last_char (rstrip chars s) = Some d -> in_chars d chars = false.
Proof.
  induction s as [| a rest IH]; simpl; [discriminate |].
  destruct (rstrip chars rest) as [| b kept] eqn:E.
  - destruct (in_chars a chars) eqn:I; simpl; [discriminate |].
    intros [= <-]. exact I.
  - intros H. apply IH. exact H.
Qed.

Lemma rstrip_not_endswith (c : ascii) (s : string) :
  endswith_char (rstrip (String c EmptyString) s) c = false.
Proof.
  unfold endswith_char.
  destruct (last_char (rstrip (String c EmptyString) s)) as [d |] eqn:L; [| reflexivity].
  apply rstrip_last_char in L. rewrite in_chars_single in L. exact L.
Qed.

Lemma list_of_replicate (n : nat) (c : ascii) :
  list_ascii_of_string (replicate n c) = repeat c n.
Proof. induction n; simpl; congruence. Qed.

Lemma list_of_append (s t : string) :
  list_ascii_of_string (s ++ t) = (list_ascii_of_string s ++ list_ascii_of_string t)%list.
Proof. induction s; simpl; congruence. Qed.

Lemma rev_repeat (c : ascii) (n : nat) : rev (repeat c n) = repeat c n.
Proof.
  induction n; simpl; [reflexivity |].
  rewrite IHn. clear IHn. induction n; simpl; congruence.
Qed.

Lemma drop_leading_repeat (c : ascii) (n : nat) (l : list ascii) :
  drop_leading c (repeat c n ++ l) = drop_leading c l.
Proof. induction n; simpl; [reflexivity |]. rewrite Ascii.eqb_refl. exact IHn. Qed.

Lemma last_char_rev_head (s : string) :
  last_char s = hd_error (rev (list_ascii_of_string s)).
Proof.
  induction s as [| a rest IH]; [reflexivity |].
  simpl list_ascii_of_string. simpl rev.
  destruct rest as [| b rest'].
  - reflexivity.
  - change (last_char (String a (String b rest'))) with (last_char (String b rest')).
    rewrite IH. destruct (rev (list_ascii_of_string (String b rest'))) eqn:R.
    + apply (f_equal (@length ascii)) in R. rewrite length_rev in R. discriminate.
    + reflexivity.
Qed.

(** A string that is [kept] followed by a run of [c], where [kept] does not
    end with [c], has [kept] as the result of removing its trailing [c]s. *)
Lemma remove_trailing_unique (c : ascii) (kept : string) (n : nat) :
  endswith_char kept c = false ->
  remove_trailing c (kept ++ replicate n c) = kept.
Proof.
  intros E. unfold remove_trailing.
  rewrite list_of_append, rev_app_distr, list_of_replicate, rev_repeat, drop_leading_repeat.
  unfold endswith_char in E. rewrite last_char_rev_head in E.
  destruct (rev (list_ascii_of_string kept)) as [| d l] eqn:R.
  - simpl. apply (f_equal (@rev ascii)) in R. rewrite rev_involutive in R. simpl in R.
    rewrite <- (string_of_list_ascii_of_string kept), R. reflexivity.
  - simpl in E. simpl. rewrite E.
    rewrite <- R, rev_involutive. apply string_of_list_ascii_of_string.
Qed.

(** [rstrip] with a one-character set is the removal of the trailing run. *)
Lemma rstrip_is_remove_trailing (c : ascii) (s : string) :
  rstrip (String c EmptyString) s = remove_trailing c s.
Proof.
  destruct (rstrip_suffix c s) as [n E].
  rewrite E at 2. symmetry. apply remove_trailing_unique, rstrip_not_endswith.
Qed.

End PyStrFacts.

(** ** [APIClient] *)
Module ApiClientFacts.
Import Py Runtime ApiClient.
Local Open Scope string_scope.
Local Open Scope py_scope.

Example isoformat_with_microseconds :
  isoformat (mkDatetime 2025 9 30 14 5 7 123) = "2025-09-30T14:05:07.000123".
Proof. reflexivity. Qed.

Example isoformat_whole_second :
  isoformat (mkDatetime 2025 9 30 14 5 8 0) = "2025-09-30T14:05:08".
Proof. reflexivity. Qed.

Example health_check_run :
  health_check Sample.client Sample.world =
    (Returned (PyDict [ ("status", PyStr "pending");
                        ("message", PyStr "Backend API to be implemented in Phase 3.8");
                        ("timestamp", PyStr "2025-09-30T14:05:07.000123") ]),
     Sample.world).
Proof. reflexivity. Qed.

Example init_run :
  value_of (__init__ (Some "http://localhost:8080//") Sample.world) =
    Some (mkAPIClient "http://localhost:8080" (newSession []) (getLogger "services.api_client")).
Proof. reflexivity. Qed.

Example module_body_run :
  api_client (globals (snd (module_body Sample.world))) = Some Sample.client.
Proof. reflexivity. Qed.

(** A function whose body is [pass] returns [None] and leaves the world as
    it found it. *)
Lemma def_pass (w : World) : def pass w = (Returned PyNone, w).
Proof. reflexivity. Qed.

(** [__init__] returns, whatever the argument and the world, and changes
    nothing. *)
Lemma init_returns (arg : option string) (w : World) :
  __init__ arg w =
    (Returned (mkAPIClient
                 (PyStr.rstrip "/" (match arg with Some u => u | None => default_base_url end))
                 (newSession []) (getLogger (dunder_name (globals w)))), w).
Proof. reflexivity. Qed.

(** C1: each of the nine placeholder methods of [APIClient] returns [None] on
    every input and leaves the whole world (network, log, page, backend,
    module namespace) as it was. *)
Theorem placeholder_methods_return_none
  (self : APIClient) (candidate_id reason : string) (data : PyVal) (w : World) :
  get_candidates self w = (Returned PyNone, w) /\
  get_candidate_detail self candidate_id w = (Returned PyNone, w) /\
  update_candidate self candidate_id data w = (Returned PyNone, w) /\
  approve_candidate self candidate_id w = (Returned PyNone, w) /\
  reject_candidate self candidate_id reason w = (Returned PyNone, w) /\
  get_contact_intelligence self candidate_id w = (Returned PyNone, w) /\
  add_contact_intelligence self candidate_id data w = (Returned PyNone, w) /\
  trigger_discovery self data w = (Returned PyNone, w) /\
  get_discovery_sessions self w = (Returned PyNone, w).
Proof. repeat split; apply def_pass. Qed.

(** C9: the result of [reject_candidate], and the world it leaves, are the
    same for any two reasons, the empty one included. *)
Theorem reject_candidate_ignores_reason
  (self : APIClient) (candidate_id r1 r2 : string) (w : World) :
  reject_candidate self candidate_id r1 w = reject_candidate self candidate_id r2 w.
Proof. unfold reject_candidate. reflexivity. Qed.

(** C10: for every [base_url] given to [__init__], the client's [base_url]
    is the argument with all its trailing ['/'] removed: the argument is the
    stored value followed by a run of ['/'], and the stored value does not
    end with ['/']. *)
Theorem init_strips_trailing_slashes (u : string) (w : World) :
  exists c : APIClient,
    __init__ (Some u) w = (Returned c, w) /\
    base_url c = PyStr.remove_trailing "/" u /\
    (exists n, u = base_url c ++ PyStr.replicate n "/") /\
    PyStr.endswith_char (base_url c) "/" = false.
Proof.
  eexists. split; [apply init_returns |]. cbn [base_url].
  split; [apply PyStrFacts.rstrip_is_remove_trailing |].
  split; [apply PyStrFacts.rstrip_suffix | apply PyStrFacts.rstrip_not_endswith].
Qed.

(** C6: the module body binds the global [api_client] to an instance built
    by [__init__] with no argument, and the [base_url] of that instance is
    the default, ["http://192.168.1.10:8080"]. *)
Theorem api_client_global_has_default_base_url (w : World) :
  exists c : APIClient,
    __init__ None w = (Returned c, w) /\
    module_body w =
      (Returned tt, with_globals w (mkNamespace (dunder_name (globals w)) (Some c))) /\
    api_client (globals (snd (module_body w))) = Some c /\
    base_url c = default_base_url /\
    default_base_url = "http://192.168.1.10:8080".
Proof.
  eexists. split; [apply init_returns |]. repeat split.
Qed.

(** C8: [health_check] sends nothing and changes nothing; for any two clients
    and any two moments its result is a dict with ["status"] equal to
    ["pending"] and ["message"] equal to the fixed text, and the two dicts
    differ at most under ["timestamp"], which holds the clock's reading. *)
Theorem health_check_is_canned (self1 self2 : APIClient) (w1 w2 : World) :
  exists items1 items2,
    health_check self1 w1 = (Returned (PyDict items1), w1) /\
    health_check self2 w2 = (Returned (PyDict items2), w2) /\
    keys items1 = [ "status"; "message"; "timestamp" ] /\
    getitem "status" items1 = Some (PyStr "pending") /\
    getitem "message" items1 = Some (PyStr "Backend API to be implemented in Phase 3.8") /\
    getitem "timestamp" items1 = Some (PyStr (isoformat (clock w1))) /\
    without "timestamp" items1 = without "timestamp" items2.
Proof.
  do 2 eexists. split; [reflexivity |]. split; [reflexivity |]. repeat split.
Qed.

Example health_check_timestamp_varies :
  fst (health_check Sample.client Sample.world)
    <> fst (health_check Sample.client Sample.later_world).
Proof. discriminate. Qed.

(** Against C2 as the specification words it.  At the sample world, where
    the candidate ["cand-1"] is in state [Enhanced]: rejecting it with the empty reason returns instead of
    failing with [ValidationFailed], and rejecting it with a reason appends
    no audit event. *)
Lemma reject_candidate_neither_validates_nor_audits :
  Backend.state_of "cand-1" (backend Sample.world) = Some Backend.Enhanced /\
  fst (reject_candidate Sample.client "cand-1" "" Sample.world)
    <> Raised Backend.ValidationFailed /\
  ~ (exists e,
       Backend.audit
         (backend (snd (reject_candidate Sample.client "cand-1" "out of scope" Sample.world)))
       = (Backend.audit (backend Sample.world) ++ [e])%list).
Proof.
  split; [reflexivity |]. split; [discriminate |].
  intros [e E]. simpl in E. discriminate E.
Qed.

(** C2, as the client has it: for every candidate and every reason, empty or
    not, [reject_candidate] returns [None] and raises nothing; it sends no
    request, appends no audit event and leaves the candidate's state as it
    was. *)
Theorem reject_candidate_accepts_any_reason
  (self : APIClient) (candidate_id reason : string) (w : World) :
  let r := reject_candidate self candidate_id reason w in
  fst r = Returned PyNone /\
  wire (snd r) = wire w /\
  Backend.audit (backend (snd r)) = Backend.audit (backend w) /\
  Backend.state_of candidate_id (backend (snd r)) = Backend.state_of candidate_id (backend w).
Proof. repeat split. Qed.

(** Against C3 as the specification words it.  At the sample world, where
    the candidate ["cand-1"] has no verified contact: approving it returns instead of failing with
    [ValidationFailed]; after a contact is added and approval retried the
    candidate is not [Approved] and the audit trail is still empty. *)
Lemma approve_candidate_neither_validates_nor_approves :
  Backend.has_verified_contact "cand-1" (backend Sample.world) = false /\
  fst (approve_candidate Sample.client "cand-1" Sample.world)
    <> Raised Backend.ValidationFailed /\
  (let r := (add_contact_intelligence Sample.client "cand-1" Sample.contact_data ;;
             approve_candidate Sample.client "cand-1") Sample.world in
   Backend.state_of "cand-1" (backend (snd r)) <> Some Backend.Approved /\
   Backend.audit (backend (snd r)) = []).
Proof.
  split; [reflexivity |]. split; [discriminate |].
  split; [discriminate | reflexivity].
Qed.

(** C3, as the client has it: [approve_candidate] returns [None] for every
    candidate, with or without a verified contact, and raises nothing;
    adding a contact and approving again returns [None] too, and leaves the
    stored candidates, contacts and audit trail as they were. *)
Theorem approve_candidate_checks_and_changes_nothing
  (self : APIClient) (candidate_id : string) (contact_data : PyVal) (w : World) :
  fst (approve_candidate self candidate_id w) = Returned PyNone /\
  (let r := (add_contact_intelligence self candidate_id contact_data ;;
             approve_candidate self candidate_id) w in
   fst r = Returned PyNone /\
   wire (snd r) = wire w /\
   backend (snd r) = backend w).
Proof. repeat split. Qed.

(** Against C4 as the specification words it.  At the sample world, with
    the configuration [{"source": "grants.gov"}]: [trigger_discovery] returns [None], which is no record with a status,
    and no session is stored. *)
Lemma trigger_discovery_returns_no_session :
  let r := trigger_discovery Sample.client Sample.discovery_config Sample.world in
  fst r = Returned PyNone /\
  ~ (exists v, fst r = Returned v /\ subscript v "status" = Some (PyStr "queued")) /\
  Backend.sessions (backend (snd r)) = [].
Proof.
  split; [reflexivity |]. split; [| reflexivity].
  intros [v [R S]]. simpl in R. injection R as <-. discriminate S.
Qed.

(** C4, as the client has it: for every configuration [trigger_discovery]
    returns [None] at once; it sends no request and stores no session. *)
Theorem trigger_discovery_returns_none_and_queues_nothing
  (self : APIClient) (session_config : PyVal) (w : World) :
  let r := trigger_discovery self session_config w in
  fst r = Returned PyNone /\
  wire (snd r) = wire w /\
  Backend.sessions (backend (snd r)) = Backend.sessions (backend w).
Proof. repeat split. Qed.

End ApiClientFacts.

(** ** The application shell *)
Module AppFacts.
Import Py Runtime App.
Local Open Scope string_scope.
Local Open Scope py_scope.

Example navigation_returns_selection :
  value_of (navigation (with_radio_index Sample.world 2)) = Some (PyStr "Enhancement").
Proof. reflexivity. Qed.

Example navigation_without_selection :
  value_of (navigation (with_radio_index Sample.world 5)) = Some PyNone.
Proof. reflexivity. Qed.

Example main_on_approval_workflow :
  page (snd (main (with_radio_index Sample.world 3))) =
    [ Title "⭐ NorthStar Funding Intelligence Platform";
      Markdown "*Human-AI Collaboration for Funding Discovery and Contact Intelligence*";
      SidebarTitle "Navigation";
      SidebarRadio "Go to:" pages;
      Info "✅ Approval Workflow page - To be implemented in Phase 3.10 (T046)" ].
Proof. reflexivity. Qed.

(** Rendering touches the page and nothing else. *)
Lemma main_touches_only_page (w : World) :
  exists elems, main w = (Returned PyNone, with_page w (page w ++ elems)%list).
Proof.
  destruct w as [c wi l p i b g].
  destruct i as [| [| [| [| [| [| i]]]]]];
    eexists; cbv -[app]; repeat rewrite <- app_assoc; reflexivity.
Qed.

(** C7: [main] offers the five pages in the sidebar radio and dispatches on
    the selected one through the [if]/[elif] chain: ["Dashboard"] calls
    [show_dashboard], ["Settings"] calls [show_settings], each of the three
    other pages renders one placeholder [info] message and nothing more;
    whatever is selected, [main] sends no request, logs nothing and leaves
    the backend and the module namespace as they were. *)
Theorem main_dispatches_on_selected_page (w : World) :
  pages = [ "Dashboard"; "Discovery Queue"; "Enhancement"; "Approval Workflow"; "Settings" ] /\
  (forall i : nat,
     value_of (navigation (with_radio_index w i)) =
       Some match nth_error pages i with
            | Some p => PyStr p
            | None => PyNone
            end) /\
  route (PyStr "Dashboard") = call show_dashboard /\
  route (PyStr "Settings") = call show_settings /\
  route (PyStr "Discovery Queue") =
    St.info "📋 Discovery Queue page - To be implemented in Phase 3.10 (T044)" /\
  route (PyStr "Enhancement") =
    St.info "🔍 Enhancement page - To be implemented in Phase 3.10 (T045)" /\
  route (PyStr "Approval Workflow") =
    St.info "✅ Approval Workflow page - To be implemented in Phase 3.10 (T046)" /\
  main (with_radio_index w 0) = (navigation ;; show_dashboard) (with_radio_index w 0) /\
  main (with_radio_index w 4) = (navigation ;; show_settings) (with_radio_index w 4) /\
  page (snd (main (with_radio_index w 1))) =
    (page (snd (navigation (with_radio_index w 1)))
     ++ [Info "📋 Discovery Queue page - To be implemented in Phase 3.10 (T044)"])%list /\
  page (snd (main (with_radio_index w 2))) =
    (page (snd (navigation (with_radio_index w 2)))
     ++ [Info "🔍 Enhancement page - To be implemented in Phase 3.10 (T045)"])%list /\
  page (snd (main (with_radio_index w 3))) =
    (page (snd (navigation (with_radio_index w 3)))
     ++ [Info "✅ Approval Workflow page - To be implemented in Phase 3.10 (T046)"])%list /\
  (let w' := snd (main w) in
   wire w' = wire w /\ log w' = log w /\ backend w' = backend w /\ globals w' = globals w).
Proof.
  split; [reflexivity |].
  split; [intros i; reflexivity |].
  do 5 (split; [reflexivity |]).
  do 2 (split; [reflexivity |]).
  do 3 (split; [reflexivity |]).
  destruct (main_touches_only_page w) as [elems ->]. repeat split.
Qed.

End AppFacts.

(** ** More on [APIClient.__init__] and [health_check] *)
Module ClientFacts.
Import Py Runtime ApiClient Observe.
Local Open Scope string_scope.
Local Open Scope py_scope.

(** A string whose last character is not stripped is left whole. *)
Lemma rstrip_fixed (chars s : string) :
  (forall d, PyStr.last_char s = Some d -> PyStr.in_chars d chars = false) ->
  PyStr.rstrip chars s = s.
Proof.
  induction s as [| a rest IH]; intros L; [reflexivity |].
  destruct rest as [| b rest'].
  - simpl. rewrite (L a eq_refl). reflexivity.
  - rewrite PyStrFacts.rstrip_cons_kept; rewrite IH; try discriminate; try reflexivity;
      intros d Hd; apply L; exact Hd.
Qed.

Lemma rstrip_idempotent (chars s : string) :
  PyStr.rstrip chars (PyStr.rstrip chars s) = PyStr.rstrip chars s.
Proof. apply rstrip_fixed. intros d. apply PyStrFacts.rstrip_last_char. Qed.

(** A suffix that strips to nothing does not change the result. *)
Lemma rstrip_app_stripped (chars s t : string) :
  PyStr.rstrip chars t = EmptyString ->
  PyStr.rstrip chars (s ++ t) = PyStr.rstrip chars s.
Proof.
  intros T. induction s as [| a rest IH]; [exact T |].
  simpl. rewrite IH. reflexivity.
Qed.

Lemma rstrip_replicate (c : ascii) (n : nat) :
  PyStr.rstrip (String c EmptyString) (PyStr.replicate n c) = EmptyString.
Proof.
  induction n as [| n IH]; [reflexivity |].
  simpl PyStr.replicate. rewrite (PyStrFacts.rstrip_cons_empty _ _ _ IH).
  rewrite PyStrFacts.in_chars_single, Ascii.eqb_refl. reflexivity.
Qed.

(** X1: building a client from the [base_url] of a client gives that
    [base_url] again. *)
Theorem init_base_url_idempotent (u : string) (w : World) :
  exists c c' : APIClient,
    __init__ (Some u) w = (Returned c, w) /\
    __init__ (Some (base_url c)) w = (Returned c', w) /\
    base_url c' = base_url c.
Proof.
  do 2 eexists. split; [reflexivity |]. split; [reflexivity |].
  apply rstrip_idempotent.
Qed.

(** X2: a URL that does not end with ['/'] is stored as it is given. *)
Theorem init_keeps_url_without_trailing_slash (u : string) (w : World) :
  PyStr.endswith_char u "/" = false ->
  option_map base_url (value_of (__init__ (Some u) w)) = Some u.
Proof.
  intros E. cbn. f_equal. apply rstrip_fixed. intros d L.
  unfold PyStr.endswith_char in E. rewrite L in E.
  rewrite PyStrFacts.in_chars_single. exact E.
Qed.

Lemma init_keeps_url_without_trailing_slash_witness :
  PyStr.endswith_char "https://api.example.org/v1" "/" = false /\
  option_map base_url (value_of (__init__ (Some "https://api.example.org/v1") Sample.world))
    = Some "https://api.example.org/v1".
Proof.
  split; [reflexivity |].
  apply (init_keeps_url_without_trailing_slash "https://api.example.org/v1" Sample.world).
  reflexivity.
Defined.

(** X3: slashes added at the end of the argument make no difference: the
    same client is built. *)
Theorem init_ignores_trailing_slashes (u : string) (n : nat) (w : World) :
  __init__ (Some (u ++ PyStr.replicate n "/")) w = __init__ (Some u) w.
Proof.
  rewrite !ApiClientFacts.init_returns.
  rewrite rstrip_app_stripped by apply rstrip_replicate. reflexivity.
Qed.

(** X4: the stored [base_url] is empty exactly when the argument is made of
    ['/'] only (the empty string included). *)
Theorem init_base_url_empty_iff_only_slashes (u : string) (w : World) :
  option_map base_url (value_of (__init__ (Some u) w)) = Some EmptyString <->
  exists n, u = PyStr.replicate n "/".
Proof.
  cbn. split.
  - intros [= E]. destruct (PyStrFacts.rstrip_suffix "/" u) as [n U].
    exists n. rewrite E in U. exact U.
  - intros [n ->]. f_equal. apply rstrip_replicate.
Qed.

(** *** The timestamp of [health_check] *)

Lemma length_append (s t : string) :
  String.length (s ++ t) = String.length s + String.length t.
Proof. induction s; simpl; congruence. Qed.

Lemma zero_pad_length (width n : nat) : String.length (zero_pad width n) = width.
Proof.
  revert n. induction width as [| w IH]; intros n; [reflexivity |].
  simpl. rewrite length_append, IH. simpl. lia.
Qed.

(** Two concatenations with first parts of one length agree part by part. *)
Lemma append_split (a a' b b' : string) :
  String.length a = String.length a' -> a ++ b = a' ++ b' -> a = a' /\ b = b'.
Proof.
  revert a'. induction a as [| x a IH]; intros [| x' a'] L E; try discriminate L.
  - split; [reflexivity | exact E].
  - simpl in L, E. injection L as L. injection E as -> E.
    destruct (IH a' L E) as [-> ->]. split; reflexivity.
Qed.

Lemma digit_injective (n m : nat) : digit n = digit m -> n mod 10 = m mod 10.
Proof.
  unfold digit. intros E. apply (f_equal nat_of_ascii) in E.
  pose proof (Nat.mod_upper_bound n 10 ltac:(discriminate)).
  pose proof (Nat.mod_upper_bound m 10 ltac:(discriminate)).
  rewrite !nat_ascii_embedding in E by lia. lia.
Qed.

Lemma zero_pad_injective (width n m : nat) :
  zero_pad width n = zero_pad width m -> n mod 10 ^ width = m mod 10 ^ width.
Proof.
  revert n m. induction width as [| w IH]; intros n m E; [reflexivity |].
  cbn [zero_pad] in E. apply append_split in E; [| rewrite !zero_pad_length; reflexivity].
  destruct E as [E D]. injection D as D.
  apply IH in E. apply digit_injective in D.
  rewrite Nat.pow_succ_r', !Nat.Div0.mod_mul_r. congruence.
Qed.

Lemma zero_pad_injective_below (width n m : nat) :
  n < 10 ^ width -> m < 10 ^ width -> zero_pad width n = zero_pad width m -> n = m.
Proof.
  intros Hn Hm E. apply zero_pad_injective in E.
  rewrite !Nat.mod_small in E by assumption. exact E.
Qed.

(** The same, with a separator between the parts. *)
Lemma field_split (sep a a' b b' : string) :
  String.length a = String.length a' ->
  a ++ sep ++ b = a' ++ sep ++ b' -> a = a' /\ b = b'.
Proof.
  intros L E. apply append_split in E; [| exact L]. destruct E as [-> E].
  apply append_split in E; [| reflexivity]. destruct E as [_ ->]. split; reflexivity.
Qed.

(** On the ranges of the class, [isoformat] tells any two moments apart. *)
Lemma isoformat_injective (d1 d2 : datetime) :
  valid_datetime d1 = true -> valid_datetime d2 = true ->
  isoformat d1 = isoformat d2 -> d1 = d2.
Proof.
  destruct d1 as [y1 mo1 dd1 h1 mi1 s1 us1], d2 as [y2 mo2 dd2 h2 mi2 s2 us2].
  unfold valid_datetime, isoformat. cbn [year month day hour minute second microsecond].
  rewrite !andb_true_iff, !Nat.leb_le, !Nat.ltb_lt.
  intros [[[[[[[[[_ Y1] _] Mo1] _] D1] H1] Mi1] S1] U1]
         [[[[[[[[[_ Y2] _] Mo2] _] D2] H2] Mi2] S2] U2] E.
  apply field_split in E; [destruct E as [Ey E] | rewrite !zero_pad_length; reflexivity].
  apply field_split in E; [destruct E as [Emo E] | rewrite !zero_pad_length; reflexivity].
  apply field_split in E; [destruct E as [Ed E] | rewrite !zero_pad_length; reflexivity].
  apply field_split in E; [destruct E as [Eh E] | rewrite !zero_pad_length; reflexivity].
  apply field_split in E; [destruct E as [Emi E] | rewrite !zero_pad_length; reflexivity].
  apply append_split in E; [destruct E as [Es E] | rewrite !zero_pad_length; reflexivity].
  apply zero_pad_injective_below in Ey; [| exact Y1 | exact Y2].
  clear Y1 Y2.
  assert (P2 : 10 ^ 2 = 100) by reflexivity.
  apply zero_pad_injective_below in Emo; [| rewrite P2; lia | rewrite P2; lia].
  apply zero_pad_injective_below in Ed; [| rewrite P2; lia | rewrite P2; lia].
  apply zero_pad_injective_below in Eh; [| rewrite P2; lia | rewrite P2; lia].
  apply zero_pad_injective_below in Emi; [| rewrite P2; lia | rewrite P2; lia].
  apply zero_pad_injective_below in Es; [| rewrite P2; lia | rewrite P2; lia].
  subst. f_equal.
  destruct (Nat.eqb_spec us1 0) as [-> | N1], (Nat.eqb_spec us2 0) as [-> | N2];
    try reflexivity; try discriminate E.
  apply append_split in E; [destruct E as [_ E] | reflexivity].
  apply zero_pad_injective_below in E; [exact E | exact U1 | exact U2].
Qed.

(** X5: at two different valid clock readings [health_check] gives
    different results: the timestamp tells the two calls apart. *)
Theorem health_check_tells_moments_apart (self1 self2 : APIClient) (w1 w2 : World) :
  valid_datetime (clock w1) = true -> valid_datetime (clock w2) = true ->
  clock w1 <> clock w2 ->
  fst (health_check self1 w1) <> fst (health_check self2 w2).
Proof.
  intros V1 V2 N E. apply N. apply isoformat_injective; try assumption.
  cbv [health_check bind datetime_now ret fst] in E. congruence.
Qed.

Lemma health_check_tells_moments_apart_witness :
  fst (health_check Sample.client Sample.world)
    <> fst (health_check Sample.client Sample.later_world).
Proof.
  apply (health_check_tells_moments_apart
           Sample.client Sample.client Sample.world Sample.later_world).
  - vm_compute. reflexivity.
  - vm_compute. reflexivity.
  - discriminate.
Defined.

End ClientFacts.

(** ** More on the application shell *)
Module ShellFacts.
Import Py Runtime App Observe.
Local Open Scope string_scope.
Local Open Scope py_scope.

Lemma skipn_length_app {A : Type} (l l' : list A) : skipn (length l) (l ++ l')%list = l'.
Proof. induction l as [| x l IH]; [reflexivity | exact IH]. Qed.

(** What a computation that only extends the page has rendered. *)
Lemma rendered_page_only {A : Type} (m : M A) (w : World) (a : Outcome A)
  (elems : list Element) :
  m w = (a, with_page w (page w ++ elems)%list) -> rendered m w = elems.
Proof. unfold rendered. intros ->. apply skipn_length_app. Qed.

Ltac run_on w :=
  destruct w as [? ? ? ? ? ? ?]; cbv -[app]; repeat rewrite <- app_assoc; reflexivity.

(** X6: [show_dashboard] is static: in every world it returns [None] and
    adds the same eight elements to the page, the three metrics in the
    columns 0, 1 and 2; it reads and changes nothing else. *)
Theorem show_dashboard_is_static :
  exists elems : list Element,
    (forall w, show_dashboard w = (Returned PyNone, with_page w (page w ++ elems)%list)) /\
    length elems = 8 /\
    metric_columns elems = [0; 1; 2].
Proof.
  eexists. split; [intros w; run_on w |]. split; reflexivity.
Qed.

(** X7: [show_settings] is static: in every world it returns [None] and adds
    the same six elements to the page, two of them code blocks. *)
Theorem show_settings_is_static :
  exists elems : list Element,
    (forall w, show_settings w = (Returned PyNone, with_page w (page w ++ elems)%list)) /\
    length elems = 6 /\
    length (code_bodies elems) = 2.
Proof.
  eexists. split; [intros w; run_on w |]. split; reflexivity.
Qed.

(** X8: the backend URL the settings page displays is the one a client built
    without argument talks to. *)
Theorem show_settings_displays_default_base_url (w : World) :
  exists body : string,
    hd_error (code_bodies (rendered show_settings w)) = Some body /\
    contains ("Backend URL: " ++ ApiClient.default_base_url) body = true.
Proof.
  erewrite rendered_page_only by run_on w.
  eexists. split; vm_compute; reflexivity.
Qed.

(** [main] in two worlds with one selection renders the same elements. *)
Lemma main_by_selection (w1 w2 : World) :
  radio_index w1 = radio_index w2 ->
  exists elems,
    main w1 = (Returned PyNone, with_page w1 (page w1 ++ elems)%list) /\
    main w2 = (Returned PyNone, with_page w2 (page w2 ++ elems)%list).
Proof.
  destruct w1 as [c1 wi1 l1 p1 i b1 g1], w2 as [c2 wi2 l2 p2 i2 b2 g2].
  cbn [radio_index]. intros <-.
  destruct i as [| [| [| [| [| [| i]]]]]];
    eexists; split; cbv -[app]; repeat rewrite <- app_assoc; reflexivity.
Qed.




(** X9: a page value that is none of the five names, [None] included, falls
    through the chain, which has no [else]: nothing is rendered and nothing
    changes. *)
Theorem route_falls_through_on_unknown_page (page : PyVal) (w : World) :
  (forall p, In p pages -> eq_str page p = false) ->
  route page w = (Returned tt, w).
Proof.
  intros U. unfold route.
  rewrite !U by (unfold pages; simpl; tauto). reflexivity.
Qed.

Lemma route_falls_through_on_unknown_page_witness :
  (forall p, In p pages -> eq_str PyNone p = false) /\
  route PyNone Sample.world = (Returned tt, Sample.world).
Proof.
  split; [reflexivity |].
  apply (route_falls_through_on_unknown_page PyNone Sample.world). reflexivity.
Defined.

(** X10: the chain covers the option list: for each of the pages offered in
    the sidebar, [route] renders at least one element. *)
Theorem route_renders_every_offered_page (p : string) (w : World) :
  In p pages ->
  exists (first : Element) (rest : list Element),
    rendered (route (PyStr p)) w = first :: rest.
Proof.
  intros [<- | [<- | [<- | [<- | [<- | []]]]]];
    do 2 eexists; (erewrite rendered_page_only by run_on w); reflexivity.
Qed.

Lemma route_renders_every_offered_page_witness :
  In "Enhancement" pages /\
  exists (first : Element) (rest : list Element),
    rendered (route (PyStr "Enhancement")) Sample.world = first :: rest.
Proof.
  split; [right; right; left; reflexivity |].
  apply (route_renders_every_offered_page "Enhancement" Sample.world).
  right; right; left; reflexivity.
Defined.

(** X12: what [main] renders depends on the selection only: two worlds with
    the same selected option, however they differ otherwise (clock, backend,
    page so far), get the same elements. *)
Theorem main_depends_on_selection_only (w1 w2 : World) :
  radio_index w1 = radio_index w2 ->
  rendered main w1 = rendered main w2.
Proof.
  intros S. destruct (main_by_selection w1 w2 S) as [elems [E1 E2]].
  rewrite (rendered_page_only _ _ _ _ E1), (rendered_page_only _ _ _ _ E2). reflexivity.
Qed.

Lemma main_depends_on_selection_only_witness :
  radio_index Sample.world = radio_index Sample.later_world /\
  rendered main Sample.world = rendered main Sample.later_world.
Proof.
  split; [reflexivity |].
  apply (main_depends_on_selection_only Sample.world Sample.later_world). reflexivity.
Defined.

(** X13: under every module name the script returns and the page
    configuration is the first element it renders, before anything of
    [main]. *)
Theorem script_configures_page_first (name : string) (w : World) :
  exists rest : list Element,
    script name w =
      (Returned tt,
       with_page w
         (page w ++
          PageConfig "NorthStar Funding Intelligence Platform" "⭐" "wide" "expanded"
          :: rest)%list).
Proof.
  unfold script, bind at 1, St.set_page_config, St.render.
  destruct (String.eqb name "__main__").
  - unfold call, bind.
    destruct (AppFacts.main_touches_only_page
                (with_page w
                   (page w ++
                    [PageConfig "NorthStar Funding Intelligence Platform" "⭐" "wide"
                       "expanded"])%list))
      as [elems ->].
    exists elems. destruct w as [c wi l p i b g]. cbn. rewrite <- app_assoc. reflexivity.
  - exists []. reflexivity.
Qed.

(** X14: loaded under a name other than [__main__], the script renders the
    page configuration and nothing else: [main] is not run. *)
Theorem script_imported_renders_configuration_only (name : string) (w : World) :
  name <> "__main__" ->
  script name w =
    (Returned tt,
     with_page w
       (page w ++
        [PageConfig "NorthStar Funding Intelligence Platform" "⭐" "wide" "expanded"])%list).
Proof.
  intros N. apply String.eqb_neq in N.
  unfold script, bind, St.set_page_config, St.render. rewrite N. reflexivity.
Qed.

Lemma script_imported_renders_configuration_only_witness :
  "app" <> "__main__" /\
  script "app" Sample.world =
    (Returned tt,
     with_page Sample.world
       (page Sample.world ++
        [PageConfig "NorthStar Funding Intelligence Platform" "⭐" "wide" "expanded"])%list).
Proof.
  split; [discriminate |].
  apply (script_imported_renders_configuration_only "app" Sample.world). discriminate.
Defined.

End ShellFacts.
